(** * deduplica: a shallow embedding of [deduplica.py] and its properties

    The script keeps one SQLite table, [file_info], with [path] as primary
    key, and a handful of commands over it and over the file system.

    Modelling decisions, all taken from the source:
    - a Python [str] is a Rocq [string]; [str.lower] is the ASCII lower
      casing, so code points outside ASCII are left as they are;
    - the table is the list of its rows in rowid order; [INSERT OR REPLACE]
      deletes the row holding the primary key and appends the new one;
    - the part of the file system that [os.path.exists] and [os.remove] see
      is the finite set of the paths that exist;
    - the part that the scanner sees is the list of triples that [os.walk]
      yields, with the bytes and the modification time of the file at each
      path;
    - [hashlib.md5] is a parameter of the development;
    - what the commands print is not part of the model;
    - storage and I/O failures ([sqlite3.Error], [OSError]) are outside the
      model: every statement is about runs in which the calls succeed. *)

From Stdlib Require Import ZArith Ascii String List Lia.
From stdpp Require Import gmap strings list fin_maps.

#[local] Set Warnings "-clear-no-such-hyp".

Local Open Scope string_scope.
Local Open Scope Z_scope.

(** ** Python strings *)

Module PyStr.

(** [c.lower()] on an ASCII letter. *)
Definition lower_ascii (c : ascii) : ascii :=
  let n := nat_of_ascii c in
  if ((65 <=? n)%nat && (n <=? 90)%nat)%bool then ascii_of_nat (n + 32) else c.

(** [s.lower()] *)
Fixpoint lower (s : string) : string :=
  match s with
  | EmptyString => EmptyString
  | String c s' => String (lower_ascii c) (lower s')
  end.

(** [s.startswith(p)] *)
Fixpoint startswith (p s : string) : bool :=
  match p, s with
  | EmptyString, _ => true
  | String _ _, EmptyString => false
  | String a p', String b s' => if Ascii.eqb a b then startswith p' s' else false
  end.

(** [s.endswith(suf)]: some tail of [s] is [suf]. *)
Fixpoint endswith (s suf : string) : bool :=
  if String.eqb s suf then true
  else match s with
       | EmptyString => false
       | String _ s' => endswith s' suf
       end.

(** [sub in s] for a non-empty [sub] (and for the empty one as well). *)
Fixpoint contains (sub s : string) : bool :=
  if startswith sub s then true
  else match s with
       | EmptyString => false
       | String _ s' => contains sub s'
       end.

(** [s.split(sep)] for a non-empty [sep]: the string is read from the left;
    [skip] counts the characters of a separator just matched that are
    still to be passed over, [cur] is the piece being built. *)
Fixpoint split_go (sep : string) (skip : nat) (cur : string) (s : string)
  : list string :=
  match s with
  | EmptyString => [cur]
  | String c s' =>
      match skip with
      | S k => split_go sep k cur s'
      | O =>
          if startswith sep s
          then cur :: split_go sep (String.length sep - 1) EmptyString s'
          else split_go sep O (cur ++ String c EmptyString) s'
      end
  end.

Definition split (sep s : string) : list string := split_go sep O EmptyString s.

(** [sep.join(l)] *)
Fixpoint join (sep : string) (l : list string) : string :=
  match l with
  | [] => EmptyString
  | [x] => x
  | x :: l' => x ++ sep ++ join sep l'
  end.

(** [l[-1]] for a non-empty list; [split] never returns the empty list. *)
Definition last_piece (l : list string) : string := List.last l EmptyString.

End PyStr.

(** [posixpath.join(a, b)] *)
Definition path_join (a b : string) : string :=
  if PyStr.startswith "/" b then b
  else if (String.eqb a "" || PyStr.endswith a "/")%bool then a ++ b
  else a ++ "/" ++ b.

(** ** The table [file_info] *)

Record row := Row {
  path : string;
  hash : string;
  file_type : string;
  size : Z;
  last_modified : Z
}.

#[global] Instance row_eq_dec : EqDecision row.
Proof. solve_decision. Defined.

(** The table, in rowid order. *)
Abbreviation db := (list row).

(** [path TEXT PRIMARY KEY] *)
Definition primary_key (d : db) : Prop := NoDup (path <$> d).

(** [DELETE FROM file_info WHERE path = ?] *)
Definition delete_by_path (p : string) (d : db) : db :=
  filter (λ r, path r ≠ p) d.

(** [INSERT OR REPLACE INTO file_info ... VALUES (?, ?, ?, ?, ?)] *)
Definition insert_or_update_file_info (d : db) (file_path file_hash ftype : string)
    (file_size modified : Z) : db :=
  delete_by_path file_path d ++ [Row file_path file_hash ftype file_size modified].


(** The row stored for a path, if any. *)
Definition lookup_path (p : string) (d : db) : option row :=
  head (filter (λ r, path r = p) d).

(** A sequence of [INSERT OR REPLACE] statements. *)
Definition upsert_all (rs : list row) (d : db) : db :=
  fold_left (λ d r, insert_or_update_file_info d (path r) (hash r)
                      (file_type r) (size r) (last_modified r)) rs d.

(** ** Python dictionaries

    A [dict] keeps its keys in insertion order and holds each key once;
    the loops of the script read them in that order. *)

Module PyDict.

Section Dict.
Context {V : Type}.

Definition t := list (string * V).

(** [d.get(k)] *)
Fixpoint get (k : string) (d : t) : option V :=
  match d with
  | [] => None
  | (k', v) :: d' => if String.eqb k k' then Some v else get k d'
  end.

(** [d[k] = v]: the value is replaced in place, a new key goes last. *)
Fixpoint set (k : string) (v : V) (d : t) : t :=
  match d with
  | [] => [(k, v)]
  | (k', v') :: d' =>
      if String.eqb k k' then (k, v) :: d' else (k', v') :: set k v d'
  end.

(** [dict(pairs)] *)
Definition of_pairs (l : list (string * V)) : t :=
  fold_left (λ d kv, set kv.1 kv.2 d) l [].

Definition keys (d : t) : list string := d.*1.
Definition values (d : t) : list V := d.*2.
End Dict.

Arguments t : clear implicits.

End PyDict.

(** ** Reading a file by chunks *)

Section Hasher.

(** [hashlib]: the state of a hash object, the new object, [update] and
    [hexdigest]. *)
Variable hasher : Type.
Variable md5_new : hasher.
Variable update : hasher → string → hasher.
Variable hexdigest : hasher → string.

Fixpoint take_bytes (n : nat) (s : string) : string :=
  match n, s with
  | S n', String c s' => String c (take_bytes n' s')
  | _, _ => EmptyString
  end.

Fixpoint drop_bytes (n : nat) (s : string) : string :=
  match n, s with
  | S n', String c s' => drop_bytes n' s'
  | _, _ => s
  end.

(** [file.read(size)] on a file whose unread part is [rest]: the bytes
    returned and what is left to read. *)
Definition file_read (size : nat) (rest : string) : string * string :=
  (take_bytes size rest, drop_bytes size rest).

(** [for chunk in iter(lambda: file.read(size), b""): hasher.update(chunk)];
    [fuel] bounds the number of turns. *)
Fixpoint read_loop (fuel size : nat) (h : hasher) (rest : string) : hasher :=
  match fuel with
  | O => h
  | S fuel' =>
      let '(chunk, rest') := file_read size rest in
      if String.eqb chunk "" then h
      else read_loop fuel' size (update h chunk) rest'
  end.

(** [get_file_hash] on a file with the given content; there are never
    more turns than bytes, plus the one that reads the empty chunk. *)
Definition get_file_hash_chunked (content : string) : string :=
  hexdigest (read_loop (S (String.length content)) 4096 md5_new content).

End Hasher.

(** ** Scanner *)

Section Scanner.

(** [hashlib.md5(content).hexdigest()] *)
Variable md5 : string → string.

(** What the scanner sees of the file system: the triples
    [(dirpath, dirnames, filenames)] that [os.walk(root)] yields, the
    bytes of the file at a path, and [int(os.path.getmtime(path))]. *)
Record tree := Tree {
  walk : string → list (string * list string * list string);
  read : string → string;
  mtime : string → Z
}.

Variable fs : tree.

(** [get_file_hash] *)
Definition get_file_hash (file_path : string) : string := md5 (read fs file_path).

(** [file_path.split('.')[-1].lower() if '.' in file_path else 'unknown'] *)
Definition file_type_of (file_path : string) : string :=
  if PyStr.contains "." file_path
  then PyStr.lower (PyStr.last_piece (PyStr.split "." file_path))
  else "unknown".

(** [collect_file_info] *)
Definition collect_file_info (file_path : string) : string * string * Z * Z :=
  (get_file_hash file_path,
   file_type_of file_path,
   Z.of_nat (String.length (read fs file_path)),
   mtime fs file_path).

(** [any(filename.lower().endswith(ext) for ext in file_types)] *)
Definition matches (file_types : list string) (filename : string) : bool :=
  existsb (λ ext, PyStr.endswith (PyStr.lower filename) ext) file_types.

(** The state of the two loops: the table and the dictionary
    [duplicates]. *)
Definition scan_state : Type := db * PyDict.t (list string).

(** The body of the inner loop. *)
Definition scan_file (file_types : list string) (dirpath : string)
    (st : scan_state) (filename : string) : scan_state :=
  if matches file_types filename then
    let file_path := path_join dirpath filename in
    let '(file_hash, ftype, file_size, modified) := collect_file_info file_path in
    (insert_or_update_file_info st.1 file_path file_hash ftype file_size modified,
     PyDict.set file_hash
       (default [] (PyDict.get file_hash st.2) ++ [file_path])%list st.2)
  else st.

(** The body of the outer loop. *)
Definition scan_dir (file_types : list string) (st : scan_state)
    (entry : string * list string * list string) : scan_state :=
  fold_left (scan_file file_types entry.1.1) entry.2 st.

Definition scan_loop (file_types : list string) (root : string) (d : db)
  : scan_state :=
  fold_left (scan_dir file_types) (walk fs root) (d, []).

(** [find_duplicates_with_enhanced_info]: the table afterwards and the
    dictionary returned. *)
Definition find_duplicates_with_enhanced_info (d : db) (root : string)
    (file_types : list string) : db * PyDict.t (list string) :=
  let st := scan_loop file_types root d in
  (st.1, filter (λ kv, (1 < length kv.2)%nat) st.2).

(** The pairs [(dirpath, filename)] in the order the loops visit them. *)
Definition visits (root : string) : list (string * string) :=
  e ← walk fs root; (λ f, (e.1.1, f)) <$> e.2.

(** The loops run over a given list of visits. *)
Definition scan_visits (file_types : list string) (vs : list (string * string))
    (st : scan_state) : scan_state :=
  fold_left (λ st v, scan_file file_types v.1 st v.2) vs st.

(** The paths the scanner processes (hashes and stores). *)
Definition processed (file_types : list string) (root : string) : list string :=
  (λ v, path_join v.1 v.2) <$> filter (λ v, matches file_types v.2 = true) (visits root).

(** The row the scanner stores for a path. *)
Definition row_of (file_path : string) : row :=
  let '(h, t, s, m) := collect_file_info file_path in
  Row file_path h t s m.

(** The rows a run over the visits [vs] stores, in order. *)
Definition rows_of (file_types : list string) (vs : list (string * string))
  : list row :=
  (λ v, row_of (path_join v.1 v.2)) <$> filter (λ v, matches file_types v.2 = true) vs.

(** The paths of [ps] whose file has the digest [h], in order. *)
Definition with_digest (h : string) (ps : list string) : list string :=
  filter (λ p, get_file_hash p = h) ps.

(** [duplicates] maps every digest to the paths processed so far that
    have it and holds no other key. *)
Definition groups_paths (dups : PyDict.t (list string)) (ps : list string)
  : Prop :=
  NoDup dups.*1
  ∧ ∀ h, PyDict.get h dups
         = match with_digest h ps with [] => None | l => Some l end.

End Scanner.

(** ** Queries *)

(** Python truthiness of an optional integer ([if end_date:]). *)
Definition truthy (o : option Z) : bool :=
  match o with
  | Some z => negb (z =? 0)
  | None => false
  end.

(** [find_files_by_date] *)
Definition find_files_by_date (d : db) (start_date : Z) (end_date : option Z)
  : list string :=
  if truthy end_date
  then path <$> filter (λ r, start_date ≤ last_modified r
                             ∧ last_modified r ≤ default 0 end_date) d
  else path <$> filter (λ r, start_date ≤ last_modified r) d.

(** [find_large_files] *)
Definition find_large_files (d : db) (size_threshold : Z) : list string :=
  path <$> filter (λ r, size_threshold < size r) d.

(** [find_large_files_with_details]; [strftime] stands for
    [datetime.fromtimestamp(t).strftime('%Y-%m-%d %H:%M:%S')], which
    depends on the time zone of the machine. *)
Definition find_large_files_with_details (strftime : Z → string) (d : db)
    (size_threshold : Z) : list (string * Z * string) :=
  (λ r, (path r, size r, strftime (last_modified r)))
    <$> filter (λ r, size_threshold < size r) d.

(** The distinct values of a column, one per group of [GROUP BY]. *)
Definition distinct (l : list string) : list string := remove_dups l.

(** [SELECT hash, GROUP_CONCAT(path, ', ') FROM file_info GROUP BY hash
    HAVING COUNT( * ) > 1] *)
Definition grouped_duplicates (d : db) : list (string * string) :=
  (λ h, (h, PyStr.join ", " (path <$> filter (λ r, hash r = h) d)))
    <$> filter (λ h, (1 < length (filter (λ r, hash r = h) d))%nat)
          (distinct (hash <$> d)).

(** [show_duplicate_files] *)
Definition show_duplicate_files (d : db) : PyDict.t (list string) :=
  fold_left (λ duplicates r, PyDict.set r.1 (PyStr.split ", " r.2) duplicates)
    (grouped_duplicates d) [].

(** ** Statistics *)

Record statistics := Statistics {
  total_files : nat;
  unique_file_types : nat;
  file_type_distribution : PyDict.t nat;
  total_size : option Z
}.

(** [SELECT file_type, COUNT( * ) FROM file_info GROUP BY file_type] *)
Definition count_by_type (d : db) : list (string * nat) :=
  (λ t, (t, length (filter (λ r, file_type r = t) d))) <$> distinct (file_type <$> d).

(** [SELECT SUM(size) FROM file_info]: [NULL] on the empty table. *)
Definition sum_size (d : db) : option Z :=
  match d with
  | [] => None
  | _ => Some (foldr Z.add 0 (size <$> d))
  end.

(** [get_statistics] *)
Definition get_statistics (d : db) : statistics :=
  {| total_files := length d;
     unique_file_types := length (distinct (file_type <$> d));
     file_type_distribution := PyDict.of_pairs (count_by_type d);
     total_size := sum_size d |}.

(** ** The commands that delete files *)

(** The calls that change the disk or the table, in the order issued. *)
Inductive event :=
| OsRemove (p : string)
| SqlDeleteByPath (p : string)
| SqlDeleteExcept (keep_path file_hash : string).

(** The disk (the paths that exist), the table and the calls made so far. *)
Record world := World {
  disk : gset string;
  table : db;
  calls : list event
}.

(** [os.path.exists] *)
Definition exists_on_disk (w : world) (p : string) : bool := bool_decide (p ∈ disk w).

(** [os.remove] *)
Definition os_remove (p : string) (w : world) : world :=
  {| disk := disk w ∖ {[p]}; table := table w; calls := calls w ++ [OsRemove p] |}.

(** [cursor.execute("DELETE FROM file_info WHERE path = ?", (p,))] *)
Definition sql_delete_by_path (p : string) (w : world) : world :=
  {| disk := disk w; table := delete_by_path p (table w);
     calls := calls w ++ [SqlDeleteByPath p] |}.


(** The loop of [clean_old_files] over [old_files]: the world and
    [cleaned_files]. *)
Definition clean_loop (old_files : list string) (w : world) : world * list string :=
  fold_left (λ st file,
               if exists_on_disk st.1 file
               then (os_remove file st.1, (st.2 ++ [file])%list)
               else st)
            old_files (w, []).

(** [clean_old_files]: the world afterwards and the list returned. *)
Definition clean_old_files (w : world) (last_accessed_threshold : Z)
  : world * list string :=
  let old_files :=
    path <$> filter (λ r, last_modified r < last_accessed_threshold) (table w) in
  let st := clean_loop old_files w in
  (fold_left (λ w file, sql_delete_by_path file w) st.2 st.1, st.2).

(** The loop shared by the cleaner and the resolver: each file of [l]
    that exists is removed and recorded. *)
Definition remove_existing (l : list string) (st : world * list string)
  : world * list string :=
  fold_left (λ st file,
               if exists_on_disk st.1 file
               then (os_remove file st.1, (st.2 ++ [file])%list)
               else st) l st.

(** *** [int(choice)] *)

Module PyInt.








End PyInt.

(** *** The interactive resolver *)












(** A duplicate group of the table: the distinct paths stored under one
    digest. *)
Definition duplicate_group (d : db) (file_hash : string) (paths : list string)
  : Prop :=
  NoDup paths ∧ ∀ p, p ∈ paths ↔ ∃ r, r ∈ d ∧ path r = p ∧ hash r = file_hash.

(** No comma followed by a space occurs in the string. *)
Definition comma_free (s : string) : Prop := PyStr.contains ", " s = false.

(** ** Sample inputs *)

(** A tree with one directory and two files of equal content, scanned into a
    table that already holds one of them under an older digest. *)
Definition sample_tree : tree :=
  {| walk := λ _, [("/d", [], ["a.txt"; "b.TXT"; "notes"])];
     read := λ _, "X";
     mtime := λ _, 5 |}.

(** A tree whose directory has a dot in its name and holds a file
    without one. *)
Definition dotted_tree : tree :=
  {| walk := λ _, [("/data/v1.2", [], ["README"])];
     read := λ _, "X";
     mtime := λ _, 5 |}.

(** A directory with one file whose name is in upper case. *)
Definition upper_tree : tree :=
  {| walk := λ _, [("/d", [], ["A.TXT"])];
     read := λ _, "X";
     mtime := λ _, 5 |}.

(** A table with one old row whose file is no longer on the disk. *)
Definition stale_world : world :=
  {| disk := ∅; table := [Row "/tmp/gone.txt" "h" "txt" 1 5]; calls := [] |}.

(** Two files with the same digest, both on the disk and in the table, and
    a third file with another digest. *)
Definition two_copies : world :=
  {| disk := {["/d/a.txt"; "/d/b.txt"; "/d/c.txt"]};
     table := [Row "/d/a.txt" "h" "txt" 1 5; Row "/d/b.txt" "h" "txt" 1 6;
               Row "/d/c.txt" "g" "txt" 1 7];
     calls := [] |}.


(** * Properties *)

(** ** The table *)

Section TableFacts.

Implicit Types (d : db) (r : row) (p : string).

Lemma primary_key_filter (P : row → Prop) `{!∀ r, Decision (P r)} d :
  primary_key d → primary_key (filter P d).
Proof.
  unfold primary_key. intros Hd. eapply sublist_NoDup; [exact Hd|].
  apply fmap_sublist, sublist_filter.
Qed.

Lemma elem_of_delete_by_path p d r :
  r ∈ delete_by_path p d ↔ path r ≠ p ∧ r ∈ d.
Proof. unfold delete_by_path. by rewrite list_elem_of_filter. Qed.


Lemma filter_none (P : row → Prop) `{!∀ r, Decision (P r)} d :
  (∀ r, r ∈ d → ¬ P r) → filter P d = [].
Proof.
  induction d as [|r d IH]; intros Hall; [done|].
  rewrite filter_cons_False; [|apply Hall; left].
  apply IH. intros r' Hr'. apply Hall. by right.
Qed.

(** The rows of a primary key table are found by their path. *)
Lemma lookup_path_Some d p r :
  primary_key d → lookup_path p d = Some r ↔ (r ∈ d ∧ path r = p).
Proof.
  unfold lookup_path, primary_key.
  induction d as [|x d IH]; intros Hd.
  - simpl. split; [done|]. intros [H _]. by apply elem_of_nil in H.
  - rewrite fmap_cons in Hd. apply NoDup_cons in Hd as [Hx Hd].
    rewrite filter_cons. destruct (decide (path x = p)) as [Hp|Hp].
    + simpl. split.
      * intros [= <-]. split; [left|done].
      * intros [Hr Hrp]. apply elem_of_cons in Hr as [->|Hr]; [done|].
        exfalso. apply Hx. apply list_elem_of_fmap. exists r. split; [congruence|done].
    + rewrite (IH Hd). split.
      * intros [? ?]. split; [by right|done].
      * intros [Hr Hrp]. apply elem_of_cons in Hr as [->|Hr]; [done|]. done.
Qed.

End TableFacts.

(** ** Scanning twice *)

Section ScanFacts.

Variable md5 : string → string.
Variable fs : tree.
Variable file_types : list string.

Lemma scan_visits_table vs st :
  (scan_visits md5 fs file_types vs st).1 = upsert_all (rows_of md5 fs file_types vs) st.1.
Proof.
  revert st. induction vs as [|v vs IH]; intros st; [done|].
  unfold scan_visits, rows_of in *. simpl. rewrite IH. clear IH.
  unfold scan_file. rewrite filter_cons.
  destruct (matches file_types v.2) eqn:Hm.
  - rewrite decide_True by done. simpl. unfold row_of, collect_file_info. done.
  - rewrite decide_False by done. done.
Qed.

Lemma scan_loop_visits root d :
  scan_loop md5 fs file_types root d
  = scan_visits md5 fs file_types (visits fs root) (d, []).
Proof.
  unfold scan_loop, visits, scan_visits.
  generalize (d, @nil (string * list string)).
  induction (walk fs root) as [|e es IH]; intros st; [done|].
  simpl. rewrite fold_left_app, <- IH. f_equal.
  unfold scan_dir. generalize (e.2) st. clear.
  intros l. induction l as [|f l IH]; intros st; [done|]. simpl. apply IH.
Qed.

Lemma upsert_all_cons x rs d :
  upsert_all (x :: rs) d = upsert_all rs (delete_by_path (path x) d ++ [x]).
Proof. by destruct x. Qed.

Lemma upsert_all_split rs d :
  upsert_all rs d
  = (filter (λ r, path r ∉ path <$> rs) d ++ upsert_all rs [])%list.
Proof.
  revert d. induction rs as [|x rs IH]; intros d.
  - simpl. rewrite app_nil_r. symmetry.
    induction d as [|r d IHd]; [done|].
    rewrite filter_cons_True; [by f_equal|]. apply not_elem_of_nil.
  - rewrite !upsert_all_cons, (IH (_ ++ _)%list), (IH ([] ++ _)%list).
    rewrite filter_app, <- app_assoc. f_equal.
    unfold delete_by_path. rewrite list_filter_filter.
    apply list_filter_iff. intros r. rewrite fmap_cons, elem_of_cons. tauto.
Qed.

Lemma upsert_all_elem_of rs d r :
  r ∈ upsert_all rs d → r ∈ d ∨ r ∈ rs.
Proof.
  revert d. induction rs as [|x rs IH]; intros d; [by left|].
  rewrite upsert_all_cons. intros H. apply IH in H as [H|H].
  - apply elem_of_app in H as [H|H].
    + apply elem_of_delete_by_path in H as [_ H]. by left.
    + apply list_elem_of_singleton in H. subst r. right. left.
  - right. by right.
Qed.



Lemma scan_table root d :
  (find_duplicates_with_enhanced_info md5 fs d root file_types).1
  = upsert_all (rows_of md5 fs file_types (visits fs root)) d.
Proof.
  unfold find_duplicates_with_enhanced_info. simpl.
  by rewrite scan_loop_visits, scan_visits_table.
Qed.

End ScanFacts.



(** ** Removing the files of a list that exist *)

Section RemoveExisting.

Lemma clean_loop_remove_existing old w :
  clean_loop old w = remove_existing old (w, []).
Proof. done. Qed.

Lemma remove_existing_cons f l w acc :
  remove_existing (f :: l) (w, acc)
  = if bool_decide (f ∈ disk w)
    then remove_existing l (os_remove f w, (acc ++ [f])%list)
    else remove_existing l (w, acc).
Proof. unfold remove_existing, exists_on_disk. simpl. by case_bool_decide. Qed.

(** What the loop leaves: the files removed are those of [l] that were
    on the disk, each is removed by one call, the table is not touched. *)
Lemma remove_existing_spec l w acc :
  ∃ c : list string,
    (remove_existing l (w, acc)).2 = (acc ++ c)%list
    ∧ disk (remove_existing l (w, acc)).1 = disk w ∖ list_to_set c
    ∧ table (remove_existing l (w, acc)).1 = table w
    ∧ calls (remove_existing l (w, acc)).1 = (calls w ++ (OsRemove <$> c))%list
    ∧ (∀ p, p ∈ c ↔ p ∈ l ∧ p ∈ disk w).
Proof.
  revert w acc. induction l as [|f l IH]; intros w acc.
  - exists []. simpl. rewrite !app_nil_r.
    split; [done|]. split; [set_solver|]. split; [done|]. split; [done|].
    intros p. split; [by intros ?%elem_of_nil|by intros [?%elem_of_nil _]].
  - rewrite remove_existing_cons. case_bool_decide as Hf.
    + destruct (IH (os_remove f w) (acc ++ [f])%list) as (c & H1 & H2 & H3 & H4 & H5).
      exists (f :: c). rewrite H1, H2, H3, H4. simpl.
      rewrite <- !app_assoc. simpl.
      split; [done|]. split; [set_solver|]. split; [done|]. split; [done|].
      intros p. rewrite !elem_of_cons, H5. simpl.
      rewrite elem_of_difference, elem_of_singleton.
      destruct (decide (p = f)) as [->|Hne]; tauto.
    + destruct (IH w acc) as (c & H1 & H2 & H3 & H4 & H5).
      exists c. split; [done|]. split; [done|]. split; [done|]. split; [done|].
      intros p. rewrite elem_of_cons, H5.
      split; [tauto|]. intros [[->|Hp] Hd]; tauto.
Qed.

(** [executemany("DELETE FROM file_info WHERE path = ?", ...)] *)
Lemma delete_many_spec (c : list string) (w : world) :
  let w' := fold_left (λ w file, sql_delete_by_path file w) c w in
  disk w' = disk w
  ∧ table w' = filter (λ r, path r ∉ c) (table w)
  ∧ calls w' = (calls w ++ (SqlDeleteByPath <$> c))%list.
Proof.
  revert w. induction c as [|f c IH]; intros w.
  - simpl. rewrite app_nil_r. repeat split.
    symmetry. induction (table w) as [|r d IHd]; [done|].
    rewrite filter_cons_True; [by f_equal|]. apply not_elem_of_nil.
  - simpl. destruct (IH (sql_delete_by_path f w)) as (H1 & H2 & H3).
    rewrite H1, H2, H3. simpl. rewrite <- app_assoc. repeat split.
    unfold delete_by_path. rewrite list_filter_filter.
    apply list_filter_iff. intros r. rewrite elem_of_cons. tauto.
Qed.

End RemoveExisting.

(** ** Cleaning old files *)

(** What [clean_old_files] does, in one statement. *)
Lemma clean_old_files_spec (w : world) (T : Z) :
  let w' := (clean_old_files w T).1 in
  let cleaned := (clean_old_files w T).2 in
  (∀ p, p ∈ cleaned
        ↔ (∃ r, r ∈ table w ∧ path r = p ∧ last_modified r < T) ∧ p ∈ disk w)
  ∧ disk w' = disk w ∖ list_to_set cleaned
  ∧ table w' = filter (λ r, path r ∉ cleaned) (table w)
  ∧ calls w' = (calls w ++ (OsRemove <$> cleaned) ++ (SqlDeleteByPath <$> cleaned))%list.
Proof.
  unfold clean_old_files. simpl. rewrite clean_loop_remove_existing.
  destruct (remove_existing_spec
              (path <$> filter (λ r, last_modified r < T) (table w)) w [])
    as (c & H1 & H2 & H3 & H4 & H5).
  simpl in H1.
  destruct (delete_many_spec c
              (remove_existing
                 (path <$> filter (λ r, last_modified r < T) (table w)) (w, [])).1)
    as (G1 & G2 & G3).
  rewrite H1. rewrite G1, G2, G3, H2, H3, H4, <- app_assoc.
  split; [|by repeat split].
  intros p. rewrite H5, list_elem_of_fmap. split.
  - intros [(r & -> & Hr) Hd]. apply list_elem_of_filter in Hr as [? ?].
    split; [by exists r|done].
  - intros [(r & Hr & <- & Hlt) Hd]. split; [|done].
    exists r. split; [done|]. by apply list_elem_of_filter.
Qed.

(** C9. For every threshold and every world, the rows that
    [clean_old_files] deletes from the table are those whose path is in the
    list it returns, and the [DELETE] statements issued are one per path of
    that list; the list holds the selected paths that existed on the disk,
    which are gone from the disk afterwards; every other row stays as it
    was, also the rows selected by [last_modified < T] whose file was
    missing from the disk. *)
Theorem clean_old_files_deletes_returned (w : world) (T : Z) :
  let w' := (clean_old_files w T).1 in
  let cleaned := (clean_old_files w T).2 in
  table w' = filter (λ r, path r ∉ cleaned) (table w)
  ∧ calls w'
    = (calls w ++ (OsRemove <$> cleaned) ++ (SqlDeleteByPath <$> cleaned))%list
  ∧ (∀ p, p ∈ cleaned
          ↔ (∃ r, r ∈ table w ∧ path r = p ∧ last_modified r < T) ∧ p ∈ disk w)
  ∧ (∀ p, p ∈ cleaned → p ∉ disk w')
  ∧ (∀ r, r ∈ table w → last_modified r < T → path r ∉ disk w → r ∈ table w').
Proof.
  intros w' cleaned.
  destruct (clean_old_files_spec w T) as (H1 & H2 & H3 & H4).
  fold w' cleaned in H1, H2, H3, H4.
  split; [done|]. split; [done|]. split; [done|]. split.
  - intros p Hp. rewrite H2. set_solver.
  - intros r Hr Hlt Hd. rewrite H3. apply list_elem_of_filter. split; [|done].
    intros Hc. apply H1 in Hc as [_ ?]. done.
Qed.

(** C2, as stated, fails: the old row of a file that is missing from the
    disk is still in the table after [clean_old_files]. *)
Lemma clean_old_files_keeps_missing :
  ¬ (∀ r, r ∈ table (clean_old_files stale_world 10).1 → 10 ≤ last_modified r).
Proof.
  intros H. specialize (H (Row "/tmp/gone.txt" "h" "txt" 1 5)).
  assert (table (clean_old_files stale_world 10).1
          = [Row "/tmp/gone.txt" "h" "txt" 1 5]) as Ht by (vm_compute; reflexivity).
  rewrite Ht in H. specialize (H ltac:(left)). simpl in H. lia.
Qed.

(** C2, amended. After [clean_old_files] with threshold [T], every row left
    in the table has [last_modified >= T] or belongs to a file that was
    missing from the disk; every row with [last_modified < T] whose file
    was on the disk is gone from the table and its file from the disk; a
    selected row whose file was missing is no error and stays in the
    table. *)
Theorem clean_old_files_threshold (w : world) (T : Z) :
  let w' := (clean_old_files w T).1 in
  (∀ r, r ∈ table w' → T ≤ last_modified r ∨ path r ∉ disk w)
  ∧ (∀ r, r ∈ table w → last_modified r < T → path r ∈ disk w →
          (r ∉ table w') ∧ (path r ∉ disk w'))
  ∧ (∀ r, r ∈ table w → last_modified r < T → path r ∉ disk w → r ∈ table w').
Proof.
  intros w'.
  destruct (clean_old_files_spec w T) as (H1 & H2 & H3 & H4).
  fold w' in H2, H3, H4. split; [|split].
  - intros r Hr. rewrite H3 in Hr. apply list_elem_of_filter in Hr as [Hn Hr].
    destruct (decide (last_modified r < T)) as [Hlt|]; [|left; lia].
    right. intros Hd. apply Hn, H1. split; [by exists r|done].
  - intros r Hr Hlt Hd.
    assert (path r ∈ (clean_old_files w T).2) as Hc.
    { apply H1. split; [by exists r|done]. }
    split.
    + rewrite H3. intros Hin. apply list_elem_of_filter in Hin as [Hn _]. done.
    + rewrite H2. set_solver.
  - intros r Hr Hlt Hd. rewrite H3. apply list_elem_of_filter. split; [|done].
    intros Hc. apply H1 in Hc as [_ ?]. done.
Qed.

(** ** Dictionaries built from rows with distinct keys *)

Section DictFacts.
Context {V : Type}.

Lemma dict_set_fresh (k : string) (v : V) (d : PyDict.t V) :
  k ∉ d.*1 → PyDict.set k v d = (d ++ [(k, v)])%list.
Proof.
  induction d as [|[k' v'] d IH]; intros Hk; [done|].
  simpl in *. apply not_elem_of_cons in Hk as [Hne Hk].
  destruct (String.eqb_spec k k') as [->|_]; [done|].
  by rewrite IH.
Qed.

Lemma dict_fold_set_fresh {A : Type} (key : A → string) (val : A → V)
    (l : list A) (acc : PyDict.t V) :
  NoDup (acc.*1 ++ (key <$> l)) →
  fold_left (λ d x, PyDict.set (key x) (val x) d) l acc
  = (acc ++ ((λ x, (key x, val x)) <$> l))%list.
Proof.
  revert acc. induction l as [|x l IH]; intros acc Hnd.
  - simpl. by rewrite app_nil_r.
  - simpl in *. apply NoDup_app in Hnd as (Hacc & Hdisj & Hl).
    apply NoDup_cons in Hl as [Hx Hl].
    rewrite dict_set_fresh.
    + rewrite IH; [by rewrite <- app_assoc|].
      rewrite fmap_app. simpl. apply NoDup_app. split; [|split; [|done]].
      * apply NoDup_app. split; [done|]. split; [|apply NoDup_singleton].
        intros k Hk Hk'. apply list_elem_of_singleton in Hk'. subst k.
        apply (Hdisj _ Hk). left.
      * intros k Hk Hk'. apply elem_of_app in Hk as [Hk|Hk].
        -- apply (Hdisj _ Hk). by right.
        -- apply list_elem_of_singleton in Hk. by subst k.
    + intros Hk. apply (Hdisj _ Hk). left.
Qed.

Lemma dict_of_pairs_NoDup (l : list (string * V)) :
  NoDup l.*1 → PyDict.of_pairs l = l.
Proof.
  intros Hnd. unfold PyDict.of_pairs.
  rewrite (dict_fold_set_fresh fst snd l []); [|done].
  simpl. induction l as [|[k v] l IH]; [done|].
  simpl. f_equal. apply IH. by apply NoDup_cons in Hnd as [_ ?].
Qed.

End DictFacts.

(** ** Statistics *)

Section CountFacts.
Context {A : Type}.

Lemma length_filter_disjoint (P Q : A → Prop)
    `{!∀ x, Decision (P x)} `{!∀ x, Decision (Q x)} (l : list A) :
  (∀ x, P x → Q x → False) →
  (length (filter P l) + length (filter Q l))%nat
  = length (filter (λ x, P x ∨ Q x) l).
Proof.
  intros Hdisj. induction l as [|x l IH]; [done|].
  rewrite !filter_cons.
  destruct (decide (P x)) as [HP|HP], (decide (Q x)) as [HQ|HQ].
  - destruct (Hdisj x HP HQ).
  - rewrite decide_True by tauto. simpl. lia.
  - rewrite decide_True by tauto. simpl. lia.
  - rewrite decide_False by tauto. done.
Qed.

(** The groups of [GROUP BY] over distinct keys share no row: their
    sizes add up to the number of rows that fall under one of the keys. *)
Lemma group_sizes_sum (col : A → string) (keys : list string) (l : list A) :
  NoDup keys →
  sum_list ((λ k, length (filter (λ x, col x = k) l)) <$> keys)
  = length (filter (λ x, col x ∈ keys) l).
Proof.
  induction 1 as [|k keys Hk Hnd IH].
  - simpl. induction l as [|x l IHl]; [done|].
    rewrite filter_cons_False; [done|]. apply not_elem_of_nil.
  - rewrite fmap_cons. change (sum_list (?a :: ?b)) with (a + sum_list b)%nat.
    rewrite IH, length_filter_disjoint.
    + f_equal. apply list_filter_iff. intros x. rewrite elem_of_cons. tauto.
    + intros x <- Hin. done.
Qed.

Lemma filter_all (P : A → Prop) `{!∀ x, Decision (P x)} (l : list A) :
  (∀ x, x ∈ l → P x) → filter P l = l.
Proof.
  induction l as [|x l IH]; intros Hall; [done|].
  rewrite filter_cons_True; [|apply Hall; left].
  f_equal. apply IH. intros y Hy. apply Hall. by right.
Qed.

End CountFacts.

Lemma count_by_type_keys (d : db) : (count_by_type d).*1 = distinct (file_type <$> d).
Proof.
  unfold count_by_type. rewrite <- list_fmap_compose.
  induction (distinct (file_type <$> d)) as [|t ts IH]; [done|].
  simpl. by f_equal.
Qed.

Lemma distribution_is_count_by_type (d : db) :
  file_type_distribution (get_statistics d) = count_by_type d.
Proof.
  simpl. apply dict_of_pairs_NoDup.
  rewrite count_by_type_keys. apply NoDup_remove_dups.
Qed.

(** C10. The statistics are consistent for every table: the counts of
    [file_type_distribution] add up to [total_files], its keys are as many
    as [unique_file_types], and it maps every type that occurs to the
    number of rows of that type, so that every row is counted under its own
    type and nowhere else. *)
Theorem statistics_consistent (d : db) :
  let s := get_statistics d in
  sum_list (PyDict.values (file_type_distribution s)) = total_files s
  ∧ unique_file_types s = length (PyDict.keys (file_type_distribution s))
  ∧ (∀ t n, (t, n) ∈ file_type_distribution s
            ↔ t ∈ file_type <$> d ∧ n = length (filter (λ r, file_type r = t) d)).
Proof.
  intros s. unfold s. rewrite distribution_is_count_by_type.
  unfold PyDict.values, PyDict.keys. rewrite count_by_type_keys.
  split; [|split; [done|]].
  - unfold count_by_type. rewrite <- list_fmap_compose. simpl.
    rewrite (group_sizes_sum file_type (distinct (file_type <$> d)) d)
      by apply NoDup_remove_dups.
    f_equal. apply filter_all. intros r Hr.
    apply elem_of_remove_dups. by apply list_elem_of_fmap_2.
  - intros t n. unfold count_by_type, distinct. split.
    + intros (t' & Heq & Ht)%list_elem_of_fmap. injection Heq as -> ->.
      split; [|done]. exact (proj1 (elem_of_remove_dups _ _) Ht).
    + intros [Ht ->]. apply list_elem_of_fmap.
      exists t. split; [done|]. exact (proj2 (elem_of_remove_dups _ _) Ht).
Qed.

(** ** Queries by date *)

(** With no end the query returns the paths modified at [start_date] or
    later, with an end other than [0] the paths in the range, both in table
    order. *)
Lemma find_files_by_date_no_end (d : db) (start_date : Z) :
  find_files_by_date d start_date None
  = path <$> filter (λ r, start_date ≤ last_modified r) d.
Proof. done. Qed.

Lemma find_files_by_date_in_range (d : db) (start_date e : Z) :
  e ≠ 0 →
  find_files_by_date d start_date (Some e)
  = path <$> filter (λ r, start_date ≤ last_modified r ∧ last_modified r ≤ e) d.
Proof.
  intros Hne. unfold find_files_by_date. simpl.
  destruct (Z.eqb_spec e 0) as [->|_]; done.
Qed.

(** C5. The end [0] is given and is not applied: with [start = 0] and
    [end = 0] the query returns the path of a row modified at time [5],
    which is outside the range from [0] to [0]. *)
Theorem find_files_by_date_end_zero :
  find_files_by_date [Row "/d/a.txt" "h" "txt" 1 5] 0 (Some 0) = ["/d/a.txt"]
  ∧ ¬ (0 ≤ 5 ≤ 0).
Proof. split; [reflexivity|lia]. Qed.

(** ** The type of a file and the filters *)

(** The letter case of a file name plays no part in the match. *)
Lemma matches_lower (file_types : list string) (f g : string) :
  PyStr.lower f = PyStr.lower g → matches file_types f = matches file_types g.
Proof. unfold matches. by intros ->. Qed.

(** C7. The file name [README] has no dot, yet its stored type is not
    [unknown]: the type is cut from the whole path, after the dot of the
    directory [v1.2]. *)
Theorem file_type_from_directory_dot (md5 : string → string) :
  PyStr.contains "." "README" = false
  ∧ file_type_of "/data/v1.2/README" = "2/readme"
  ∧ (find_duplicates_with_enhanced_info md5 dotted_tree [] "/data" ["readme"]).1
    = [Row "/data/v1.2/README" (md5 "X") "2/readme" 1 5].
Proof. repeat split. Qed.

(** The file name [data.TXT] gets the type [txt]. *)
Example file_type_of_upper : file_type_of "/d/data.TXT" = "txt".
Proof. reflexivity. Qed.

(** C8. The filter [.TXT] is compared as given with the lower-cased file
    name: the file [A.TXT], whose name ends with the filter, is not
    processed, and the scan stores nothing. *)
Theorem upper_case_filter_matches_nothing (md5 : string → string) :
  PyStr.endswith "A.TXT" ".TXT" = true
  ∧ matches [".TXT"] "A.TXT" = false
  ∧ processed upper_tree [".TXT"] "/d" = []
  ∧ (find_duplicates_with_enhanced_info md5 upper_tree [] "/d" [".TXT"]).1 = [].
Proof. repeat split. Qed.

(** ** Duplicates read from the table *)

(** C4. Two rows share the digest [h]; one of the paths contains a comma
    and a space. [show_duplicate_files] returns three paths under [h], two
    of which are not paths of the table. *)
Theorem show_duplicate_files_splits_path :
  show_duplicate_files
    [Row "/d/a, b.txt" "h" "txt" 1 5; Row "/d/c.txt" "h" "txt" 1 5]
  = [("h", ["/d/a"; "b.txt"; "/d/c.txt"])].
Proof. reflexivity. Qed.

(** ** The interactive resolver *)





(** *** Resolving one group *)




(** The rows of a primary key table are told apart by their path. *)
Lemma primary_key_inj (d : db) (r r' : row) :
  primary_key d → r ∈ d → r' ∈ d → path r = path r' → r = r'.
Proof.
  intros Hd Hr Hr' Heq.
  assert (lookup_path (path r) d = Some r) as H1 by by apply lookup_path_Some.
  assert (lookup_path (path r) d = Some r') as H2 by by apply lookup_path_Some.
  congruence.
Qed.

Lemma filter_path_singleton (d : db) (r : row) :
  primary_key d → r ∈ d → filter (λ x, path x = path r) d = [r].
Proof.
  unfold primary_key. induction d as [|x d IH]; intros Hd Hr.
  - by apply elem_of_nil in Hr.
  - rewrite fmap_cons in Hd. apply NoDup_cons in Hd as [Hx Hd].
    rewrite filter_cons. destruct (decide (path x = path r)) as [Heq|Hne].
    + assert (x = r) as ->.
      { apply elem_of_cons in Hr as [->|Hr]; [done|].
        exfalso. apply Hx. rewrite Heq. by apply list_elem_of_fmap_2. }
      f_equal. apply filter_none. intros y Hy Hyr.
      apply Hx. rewrite <- Hyr. by apply list_elem_of_fmap_2.
    + apply IH; [done|]. apply elem_of_cons in Hr as [->|Hr]; done.
Qed.

(** The paths that a primary key table stores under a digest form a
    duplicate group. *)
Lemma duplicate_group_filter (d : db) (file_hash : string) :
  primary_key d →
  duplicate_group d file_hash (path <$> filter (λ r, hash r = file_hash) d).
Proof.
  intros Hd. split; [by apply primary_key_filter|].
  intros p. rewrite list_elem_of_fmap. split.
  - intros (r & -> & Hr). apply list_elem_of_filter in Hr as [? ?]. by exists r.
  - intros (r & Hr & <- & Hh). exists r. split; [done|].
    by apply list_elem_of_filter.
Qed.





Lemma two_copies_primary_key : primary_key (table two_copies).
Proof. unfold primary_key. apply (bool_decide_unpack _). vm_compute. exact I. Qed.



(** ** Splitting what was joined *)

Section SplitJoin.

Lemma string_app_cons (c : ascii) (a b : string) :
  String c a ++ b = String c (a ++ b).
Proof. reflexivity. Qed.

Lemma string_app_nil_l (b : string) : "" ++ b = b.
Proof. reflexivity. Qed.

Lemma string_app_nil_r (a : string) : a ++ "" = a.
Proof.
  induction a as [|c a IH]; [done|]. rewrite string_app_cons. by f_equal.
Qed.

Lemma string_app_assoc (a b c : string) : (a ++ b) ++ c = a ++ (b ++ c).
Proof.
  induction a as [|x a IH]; [done|]. rewrite !string_app_cons. by f_equal.
Qed.

Lemma comma_free_cons (c : ascii) (s : string) :
  comma_free (String c s) →
  PyStr.startswith ", " (String c s) = false ∧ comma_free s.
Proof.
  unfold comma_free. cbn [PyStr.contains].
  destruct (PyStr.startswith ", " (String c s)); [done|]. done.
Qed.

Lemma startswith_comma_app (c : ascii) (s t : string) :
  PyStr.startswith ", " (String c s) = false →
  PyStr.startswith ", " (String c (s ++ ", " ++ t)) = false.
Proof.
  cbn [PyStr.startswith]. destruct (Ascii.eqb "," c); [|done].
  destruct s as [|b s].
  - rewrite string_app_nil_l, string_app_cons. done.
  - rewrite string_app_cons. destruct (Ascii.eqb " " b); done.
Qed.

Lemma split_go_comma_free (cur x : string) :
  comma_free x → PyStr.split_go ", " 0 cur x = [cur ++ x].
Proof.
  revert cur. induction x as [|c x IH]; intros cur Hx.
  - simpl. by rewrite string_app_nil_r.
  - apply comma_free_cons in Hx as [Hs Hx].
    cbn [PyStr.split_go]. rewrite Hs, (IH _ Hx), string_app_assoc. done.
Qed.

Lemma split_go_comma_sep (cur x t : string) :
  comma_free x →
  PyStr.split_go ", " 0 cur (x ++ ", " ++ t)
  = (cur ++ x) :: PyStr.split_go ", " 0 "" t.
Proof.
  revert cur. induction x as [|c x IH]; intros cur Hx.
  - rewrite string_app_nil_l, string_app_nil_r, !string_app_cons. done.
  - apply comma_free_cons in Hx as [Hs Hx].
    rewrite string_app_cons.
    cbn [PyStr.split_go]. rewrite (startswith_comma_app c x t Hs), (IH _ Hx).
    by rewrite string_app_assoc.
Qed.

(** Splitting on the separator gives back the strings joined with it, when
    none of them contains the separator. *)
Lemma split_join (l : list string) :
  l ≠ [] → Forall comma_free l → PyStr.split ", " (PyStr.join ", " l) = l.
Proof.
  unfold PyStr.split. induction l as [|x l IH]; intros Hne Hall; [done|].
  apply Forall_cons in Hall as [Hx Hall].
  destruct l as [|y l].
  - simpl. by rewrite split_go_comma_free.
  - change (PyStr.join ", " (x :: y :: l))
      with (x ++ ", " ++ PyStr.join ", " (y :: l)).
    rewrite split_go_comma_sep by done. simpl. f_equal. by apply IH.
Qed.

End SplitJoin.

(** When no stored path contains a comma followed by a space,
    [show_duplicate_files] returns, for each digest with two rows or more,
    the paths stored under it. *)
Lemma show_duplicate_files_comma_free (d : db) :
  Forall (λ r, comma_free (path r)) d →
  show_duplicate_files d
  = (λ h, (h, path <$> filter (λ r, hash r = h) d))
      <$> filter (λ h, (1 < length (filter (λ r, hash r = h) d))%nat)
            (distinct (hash <$> d)).
Proof.
  intros Hfree. unfold show_duplicate_files.
  rewrite (dict_fold_set_fresh fst (λ r, PyStr.split ", " r.2)).
  - simpl. unfold grouped_duplicates. rewrite <- list_fmap_compose.
    apply list_fmap_ext. intros i h Hh. simpl. f_equal.
    apply list_elem_of_lookup_2, list_elem_of_filter in Hh as [Hlen _].
    apply split_join.
    + intros Hnil. apply (f_equal length) in Hnil.
      rewrite length_fmap in Hnil. simpl in Hnil. lia.
    + apply Forall_fmap, Forall_forall. intros r Hr. simpl.
      apply list_elem_of_filter in Hr as [_ Hr].
      by apply (proj1 (Forall_forall _ _) Hfree).
  - simpl. unfold grouped_duplicates. rewrite <- list_fmap_compose.
    simpl. rewrite list_fmap_id. apply NoDup_filter, NoDup_remove_dups.
Qed.

(** Under that condition and the primary key, every entry returned is a
    duplicate group of the table with two paths or more, and the keys are
    the digests with two rows or more. *)
Lemma show_duplicate_files_groups (d : db) :
  primary_key d →
  Forall (λ r, comma_free (path r)) d →
  (∀ h paths, (h, paths) ∈ show_duplicate_files d →
              duplicate_group d h paths ∧ (2 ≤ length paths)%nat)
  ∧ (∀ h, h ∈ PyDict.keys (show_duplicate_files d)
          ↔ (2 ≤ length (filter (λ r, hash r = h) d))%nat).
Proof.
  intros Hpk Hfree. rewrite (show_duplicate_files_comma_free d Hfree). split.
  - intros h paths (h' & Heq & Hh)%list_elem_of_fmap. injection Heq as -> ->.
    apply list_elem_of_filter in Hh as [Hlen _].
    split; [by apply duplicate_group_filter|].
    rewrite length_fmap. lia.
  - intros h. unfold PyDict.keys. rewrite <- list_fmap_compose. simpl.
    rewrite list_fmap_id, list_elem_of_filter. unfold distinct.
    rewrite elem_of_remove_dups. split; [intros [? _]; lia|].
    intros Hlen. split; [lia|].
    destruct (filter (λ r, hash r = h) d) as [|r rs] eqn:Hf; [simpl in Hlen; lia|].
    assert (r ∈ filter (λ r, hash r = h) d) as Hr by (rewrite Hf; left).
    apply list_elem_of_filter in Hr as [<- Hr]. by apply list_elem_of_fmap_2.
Qed.

(** ** The type of a file, in general *)

Section FileType.

Lemma split_go_not_nil (sep : string) (skip : nat) (cur s : string) :
  PyStr.split_go sep skip cur s ≠ [].
Proof.
  revert skip cur. induction s as [|c s IH]; intros skip cur; [done|].
  simpl. destruct skip as [|k]; [|apply IH].
  destruct (PyStr.startswith sep (String c s)); [done|apply IH].
Qed.

Lemma last_piece_cons (x : string) (l : list string) :
  l ≠ [] → PyStr.last_piece (x :: l) = PyStr.last_piece l.
Proof. by destruct l. Qed.

Lemma split_go_dot_cons (cur : string) (c : ascii) (s : string) :
  PyStr.split_go "." 0 cur (String c s)
  = if Ascii.eqb "." c then cur :: PyStr.split_go "." 0 "" s
    else PyStr.split_go "." 0 (cur ++ String c "") s.
Proof. cbn [PyStr.split_go PyStr.startswith]. by destruct (Ascii.eqb "." c). Qed.

Lemma contains_dot_cons (c : ascii) (s : string) :
  PyStr.contains "." (String c s) = (Ascii.eqb "." c || PyStr.contains "." s)%bool.
Proof. cbn [PyStr.contains PyStr.startswith]. by destruct (Ascii.eqb "." c). Qed.

Lemma contains_dot_app (a b : string) :
  PyStr.contains "." (a ++ b)
  = (PyStr.contains "." a || PyStr.contains "." b)%bool.
Proof.
  induction a as [|c a IH].
  - rewrite string_app_nil_l. by destruct b.
  - rewrite string_app_cons, !contains_dot_cons, IH. by rewrite orb_assoc.
Qed.

(** After a dot, what was read before plays no part in the last piece. *)
Lemma last_piece_after_dot (cur cur' b : string) :
  PyStr.contains "." b = true →
  PyStr.last_piece (PyStr.split_go "." 0 cur b)
  = PyStr.last_piece (PyStr.split_go "." 0 cur' b).
Proof.
  revert cur cur'. induction b as [|c b IH]; intros cur cur' Hb; [done|].
  rewrite contains_dot_cons in Hb. rewrite !split_go_dot_cons.
  destruct (Ascii.eqb "." c); simpl in Hb.
  - rewrite !last_piece_cons by apply split_go_not_nil. done.
  - by apply IH.
Qed.

Lemma last_piece_app (cur a b : string) :
  PyStr.contains "." b = true →
  PyStr.last_piece (PyStr.split_go "." 0 cur (a ++ b))
  = PyStr.last_piece (PyStr.split_go "." 0 "" b).
Proof.
  revert cur. induction a as [|c a IH]; intros cur Hb.
  - rewrite string_app_nil_l. by apply last_piece_after_dot.
  - rewrite string_app_cons, split_go_dot_cons.
    destruct (Ascii.eqb "." c).
    + rewrite last_piece_cons by apply split_go_not_nil. by apply IH.
    + by apply IH.
Qed.

(** Whatever stands before a name with a dot, the type is that of the
    name. *)
Lemma file_type_of_app (a f : string) :
  PyStr.contains "." f = true → file_type_of (a ++ f) = file_type_of f.
Proof.
  intros Hf. unfold file_type_of.
  rewrite contains_dot_app, Hf, orb_true_r. unfold PyStr.split.
  by rewrite (last_piece_app "" a f Hf).
Qed.

Lemma path_join_app (a b : string) : ∃ pre, path_join a b = pre ++ b.
Proof.
  unfold path_join. destruct (PyStr.startswith "/" b).
  - by exists "".
  - destruct (String.eqb a "" || PyStr.endswith a "/")%bool.
    + by exists a.
    + exists (a ++ "/"). by rewrite string_app_assoc.
Qed.

(** A file name with a dot gets the type of the name, wherever it is. *)
Lemma file_type_of_dotted_name (dirpath filename : string) :
  PyStr.contains "." filename = true →
  file_type_of (path_join dirpath filename) = file_type_of filename.
Proof.
  intros Hf. destruct (path_join_app dirpath filename) as [pre ->].
  by apply file_type_of_app.
Qed.

(** The type is [unknown] exactly when the whole path has no dot. *)
Lemma file_type_of_no_dot (file_path : string) :
  PyStr.contains "." file_path = false → file_type_of file_path = "unknown".
Proof. unfold file_type_of. by intros ->. Qed.

End FileType.

(** ** The filters, in general *)

Lemma endswith_unfold (s suf : string) :
  PyStr.endswith s suf
  = if String.eqb s suf then true
    else match s with
         | EmptyString => false
         | String _ s' => PyStr.endswith s' suf
         end.
Proof. by destruct s. Qed.

Lemma endswith_app (s suf : string) :
  PyStr.endswith s suf = true ↔ ∃ pre, s = pre ++ suf.
Proof.
  split.
  - induction s as [|c s IH]; rewrite endswith_unfold.
    + destruct (String.eqb_spec "" suf) as [<-|_]; [|done]. by exists "".
    + destruct (String.eqb_spec (String c s) suf) as [<-|_]; [by exists ""|].
      intros (pre & ->)%IH. by exists (String c pre).
  - intros [pre ->]. induction pre as [|c pre IH].
    + rewrite string_app_nil_l, endswith_unfold. by rewrite String.eqb_refl.
    + rewrite string_app_cons, endswith_unfold, IH.
      by destruct (String.eqb (String c (pre ++ suf)) suf).
Qed.


(** * Further properties of the code *)

(** ** [insert_or_update_file_info] *)

(** The row just stored is the one found under its path, and the rows of
    the other paths are found as before. *)
Theorem insert_then_lookup (d : db) (p h t : string) (s m : Z) :
  lookup_path p (insert_or_update_file_info d p h t s m) = Some (Row p h t s m)
  ∧ ∀ q, q ≠ p →
         lookup_path q (insert_or_update_file_info d p h t s m) = lookup_path q d.
Proof.
  unfold lookup_path, insert_or_update_file_info, delete_by_path. split.
  - rewrite filter_app, (filter_none _ (filter _ d)).
    + by rewrite filter_cons_True.
    + intros r Hr Hp. by apply list_elem_of_filter in Hr as [Hne _].
  - intros q Hq. rewrite filter_app, list_filter_filter_l.
    + rewrite (filter_cons_False _ (Row p h t s m)) by (simpl; congruence).
      by rewrite filter_nil, app_nil_r.
    + intros r ->. done.
Qed.

(** Storing a path again replaces what was stored for it: only the last
    values remain. *)
Theorem insert_overwrites (d : db) (p h t h' t' : string) (s m s' m' : Z) :
  insert_or_update_file_info (insert_or_update_file_info d p h t s m) p h' t' s' m'
  = insert_or_update_file_info d p h' t' s' m'.
Proof.
  unfold insert_or_update_file_info, delete_by_path. f_equal.
  rewrite filter_app, list_filter_filter_l by done.
  rewrite filter_cons_False by (simpl; tauto).
  by rewrite filter_nil, app_nil_r.
Qed.

Lemma length_delete_by_path (d : db) (p : string) :
  primary_key d →
  length (delete_by_path p d)
  = if decide (p ∈ path <$> d) then (length d - 1)%nat else length d.
Proof.
  intros Hd. unfold delete_by_path.
  assert (length (filter (λ r, path r = p) d) + length (filter (λ r, path r ≠ p) d)
          = length d)%nat as Hsum.
  { rewrite length_filter_disjoint by tauto.
    f_equal. apply filter_all. intros r _.
    destruct (decide (path r = p)); tauto. }
  destruct (decide (p ∈ path <$> d)) as [Hin|Hin].
  - apply list_elem_of_fmap in Hin as (r & -> & Hr).
    rewrite (filter_path_singleton d r Hd Hr) in Hsum. simpl in Hsum. lia.
  - rewrite (filter_none (λ r, path r = p) d) in Hsum; [simpl in Hsum; lia|].
    intros r Hr <-. apply Hin. by apply list_elem_of_fmap_2.
Qed.

(** In a table that respects the primary key, storing a known path keeps
    the number of rows and storing a new path adds one row. *)
Theorem insert_length (d : db) (p h t : string) (s m : Z) :
  primary_key d →
  length (insert_or_update_file_info d p h t s m)
  = if decide (p ∈ path <$> d) then length d else S (length d).
Proof.
  intros Hd. unfold insert_or_update_file_info.
  rewrite length_app, (length_delete_by_path d p Hd). simpl.
  destruct (decide (p ∈ path <$> d)) as [Hin|_]; [|lia].
  destruct d; [by apply elem_of_nil in Hin|simpl; lia].
Qed.

Lemma insert_length_witness :
  primary_key [Row "/d/a.txt" "h" "txt" 1 5]
  ∧ length (insert_or_update_file_info [Row "/d/a.txt" "h" "txt" 1 5]
              "/d/a.txt" "g" "txt" 2 6)
    = if decide ("/d/a.txt" ∈ path <$> [Row "/d/a.txt" "h" "txt" 1 5])
      then length [Row "/d/a.txt" "h" "txt" 1 5]
      else S (length [Row "/d/a.txt" "h" "txt" 1 5]).
Proof.
  assert (primary_key [Row "/d/a.txt" "h" "txt" 1 5]) as H.
  { unfold primary_key. simpl. apply NoDup_singleton. }
  split; [exact H|].
  exact (insert_length [Row "/d/a.txt" "h" "txt" 1 5] "/d/a.txt" "g" "txt" 2 6 H).
Defined.

(** ** [find_duplicates_with_enhanced_info] *)

Section ScanMore.

Variable md5 : string → string.
Variable fs : tree.
Variable file_types : list string.

Lemma lookup_path_snoc (d : db) (x : row) (q : string) :
  lookup_path q (delete_by_path (path x) d ++ [x])
  = if decide (q = path x) then Some x else lookup_path q d.
Proof.
  unfold lookup_path, delete_by_path. rewrite filter_app.
  destruct (decide (q = path x)) as [->|Hq].
  - rewrite (filter_none _ (filter _ d)).
    + by rewrite filter_cons_True.
    + intros r Hr Hp. by apply list_elem_of_filter in Hr as [Hne _].
  - rewrite list_filter_filter_l by (intros r ->; done).
    rewrite (filter_cons_False _ x) by congruence.
    by rewrite filter_nil, app_nil_r.
Qed.

Lemma lookup_path_upsert_all_other (rs : list row) (d : db) (p : string) :
  p ∉ path <$> rs → lookup_path p (upsert_all rs d) = lookup_path p d.
Proof.
  revert d. induction rs as [|x rs IH]; intros d Hp; [done|].
  rewrite fmap_cons in Hp. apply not_elem_of_cons in Hp as [Hx Hp].
  rewrite upsert_all_cons, (IH _ Hp), lookup_path_snoc.
  by rewrite decide_False.
Qed.

Lemma lookup_path_upsert_all_in (rs : list row) (d : db) (p : string) (r : row) :
  p ∈ path <$> rs →
  (∀ x, x ∈ rs → path x = p → x = r) →
  lookup_path p (upsert_all rs d) = Some r.
Proof.
  revert d. induction rs as [|x rs IH]; intros d Hp Hr.
  - by apply elem_of_nil in Hp.
  - rewrite upsert_all_cons.
    destruct (decide (p ∈ path <$> rs)) as [Hin|Hin].
    + apply IH; [done|]. intros y Hy. apply Hr. by right.
    + rewrite (lookup_path_upsert_all_other rs _ p Hin), lookup_path_snoc.
      rewrite fmap_cons in Hp. apply elem_of_cons in Hp as [->|Hp]; [|done].
      rewrite decide_True by done. f_equal. apply Hr; [left|done].
Qed.

Lemma path_row_of (p : string) : path (row_of md5 fs p) = p.
Proof. done. Qed.

Lemma rows_of_paths (vs : list (string * string)) :
  path <$> rows_of md5 fs file_types vs
  = (λ v, path_join v.1 v.2) <$> filter (λ v, matches file_types v.2 = true) vs.
Proof.
  unfold rows_of. rewrite <- list_fmap_compose. by apply list_fmap_ext.
Qed.

(** After a scan, every processed path is stored with the digest, type,
    size and time just read for it; the rows of all other paths are the
    rows of the table before the scan, in the same order. *)
Theorem scan_stores_processed (root : string) (d : db) :
  let d1 := (find_duplicates_with_enhanced_info md5 fs d root file_types).1 in
  (∀ p, p ∈ processed fs file_types root →
        lookup_path p d1 = Some (row_of md5 fs p))
  ∧ filter (λ r, path r ∉ processed fs file_types root) d1
    = filter (λ r, path r ∉ processed fs file_types root) d.
Proof.
  intros d1. unfold d1. rewrite scan_table. unfold processed.
  rewrite <- rows_of_paths. split.
  - intros p Hp. apply lookup_path_upsert_all_in; [done|].
    intros x Hx <-. unfold rows_of in Hx.
    apply list_elem_of_fmap in Hx as (v & -> & _). done.
  - rewrite upsert_all_split, filter_app.
    rewrite (filter_none _ (upsert_all _ [])).
    + rewrite app_nil_r. by apply list_filter_filter_l.
    + intros r Hr Hn. apply upsert_all_elem_of in Hr as [Hr|Hr].
      * by apply elem_of_nil in Hr.
      * apply Hn. by apply list_elem_of_fmap_2.
Qed.

(** When no visited file name matches a filter, as with an empty list of
    filters, the scan changes nothing and returns no group. *)
Theorem scan_without_match (root : string) (d : db) :
  processed fs file_types root = [] →
  find_duplicates_with_enhanced_info md5 fs d root file_types = (d, []).
Proof.
  unfold processed, find_duplicates_with_enhanced_info.
  rewrite scan_loop_visits. intros Hnone.
  apply fmap_nil_inv in Hnone.
  assert (scan_visits md5 fs file_types (visits fs root) (d, []) = (d, [])) as ->;
    [|done].
  generalize (d, @nil (string * list string)).
  induction (visits fs root) as [|v vs IH]; intros st; [done|].
  rewrite filter_cons in Hnone. unfold scan_visits in *. simpl.
  unfold scan_file at 2. destruct (matches file_types v.2) eqn:Hm.
  - by rewrite decide_True in Hnone.
  - rewrite decide_False in Hnone by done. by apply IH.
Qed.

End ScanMore.

Lemma scan_without_match_witness :
  processed sample_tree [] "/d" = []
  ∧ find_duplicates_with_enhanced_info (λ s, s) sample_tree
      [Row "/d/a.txt" "old" "txt" 1 1] "/d" []
    = ([Row "/d/a.txt" "old" "txt" 1 1], []).
Proof.
  assert (processed sample_tree [] "/d" = []) as H by reflexivity.
  split; [exact H|].
  exact (scan_without_match (λ s, s) sample_tree [] "/d" _ H).
Defined.

(** *** The dictionary returned by the scan *)

Section DictGet.
Context {V : Type}.

Lemma dict_get_set (k k' : string) (v : V) (d : PyDict.t V) :
  PyDict.get k' (PyDict.set k v d)
  = if decide (k' = k) then Some v else PyDict.get k' d.
Proof.
  induction d as [|[k0 v0] d IH]; simpl.
  - destruct (String.eqb_spec k' k) as [->|Hne];
      [by rewrite decide_True|by rewrite decide_False].
  - destruct (String.eqb_spec k k0) as [->|Hne]; simpl.
    + destruct (String.eqb_spec k' k0) as [->|Hne'];
        [by rewrite decide_True|by rewrite decide_False].
    + destruct (String.eqb_spec k' k0) as [->|Hne']; [|done].
      by rewrite decide_False.
Qed.

Lemma dict_keys_set (k x : string) (v : V) (d : PyDict.t V) :
  x ∈ (PyDict.set k v d).*1 ↔ x = k ∨ x ∈ d.*1.
Proof.
  induction d as [|[k0 v0] d IH]; simpl.
  - rewrite list_elem_of_singleton, elem_of_nil. tauto.
  - destruct (String.eqb_spec k k0) as [->|Hne]; simpl.
    + rewrite !elem_of_cons. tauto.
    + rewrite !elem_of_cons, IH. tauto.
Qed.

Lemma dict_set_NoDup (k : string) (v : V) (d : PyDict.t V) :
  NoDup d.*1 → NoDup (PyDict.set k v d).*1.
Proof.
  induction d as [|[k0 v0] d IH]; simpl; intros Hd.
  - apply NoDup_singleton.
  - apply NoDup_cons in Hd as [Hk0 Hd].
    destruct (String.eqb_spec k k0) as [->|Hne]; simpl.
    + by apply NoDup_cons.
    + apply NoDup_cons. split; [|by apply IH].
      rewrite dict_keys_set. intros [?|?]; [congruence|done].
Qed.

Lemma dict_get_None (k : string) (d : PyDict.t V) :
  k ∉ d.*1 → PyDict.get k d = None.
Proof.
  induction d as [|[k0 v0] d IH]; simpl; intros Hk; [done|].
  apply not_elem_of_cons in Hk as [Hne Hk].
  destruct (String.eqb_spec k k0) as [->|_]; [done|by apply IH].
Qed.

Lemma dict_get_filter (P : string * V → Prop) `{!∀ x, Decision (P x)}
    (k : string) (d : list (string * V)) :
  NoDup d.*1 →
  PyDict.get k (filter P d)
  = match PyDict.get k d with
    | Some v => if decide (P (k, v)) then Some v else None
    | None => None
    end.
Proof.
  induction d as [|[k0 v0] d IH]; intros Hd; [done|].
  simpl in Hd. apply NoDup_cons in Hd as [Hk0 Hd].
  rewrite filter_cons. simpl PyDict.get at 2.
  destruct (String.eqb_spec k k0) as [->|Hne].
  - destruct (decide (P (k0, v0))) as [HP|HP].
    + simpl. by rewrite String.eqb_refl.
    + rewrite (IH Hd), (dict_get_None k0 d Hk0). done.
  - destruct (decide (P (k0, v0))) as [HP|HP].
    + simpl. destruct (String.eqb_spec k k0) as [->|_]; [done|]. by apply IH.
    + by apply IH.
Qed.

End DictGet.

Section ScanDict.

Variable md5 : string → string.
Variable fs : tree.
Variable file_types : list string.

Lemma scan_file_groups (dirpath filename : string) (st : scan_state)
    (ps : list string) :
  groups_paths md5 fs st.2 ps →
  groups_paths md5 fs (scan_file md5 fs file_types dirpath st filename).2
    (ps ++ if matches file_types filename
           then [path_join dirpath filename] else [])%list.
Proof.
  intros [Hnd Hget]. unfold scan_file.
  destruct (matches file_types filename); [|by rewrite app_nil_r].
  simpl. split; [by apply dict_set_NoDup|].
  intros h. rewrite dict_get_set. unfold groups_paths, with_digest in *.
  rewrite filter_app, filter_cons, filter_nil.
  destruct (decide (h = get_file_hash md5 fs (path_join dirpath filename)))
    as [->|Hne].
  - rewrite decide_True by done. rewrite Hget.
    by destruct (filter _ ps).
  - rewrite decide_False by congruence. by rewrite app_nil_r.
Qed.

Lemma scan_visits_groups (vs : list (string * string)) (st : scan_state)
    (ps : list string) :
  groups_paths md5 fs st.2 ps →
  groups_paths md5 fs (scan_visits md5 fs file_types vs st).2
    (ps ++ ((λ v, path_join v.1 v.2)
              <$> filter (λ v, matches file_types v.2 = true) vs))%list.
Proof.
  revert st ps. induction vs as [|v vs IH]; intros st ps Hst.
  - simpl. by rewrite app_nil_r.
  - unfold scan_visits in *. simpl fold_left.
    pose proof (scan_file_groups v.1 v.2 st ps Hst) as Hstep.
    apply IH in Hstep. rewrite <- app_assoc in Hstep.
    rewrite filter_cons. destruct (matches file_types v.2) eqn:Hm.
    + by rewrite decide_True.
    + by rewrite decide_False.
Qed.

(** The dictionary returned by the scan maps a digest to the processed
    paths whose file has that digest, in the order visited, when there are
    two or more of them, and has no entry for the digest otherwise. *)
Theorem scan_returns_groups (root : string) (d : db) (h : string) :
  PyDict.get h (find_duplicates_with_enhanced_info md5 fs d root file_types).2
  = let l := with_digest md5 fs h (processed fs file_types root) in
    if decide (1 < length l)%nat then Some l else None.
Proof.
  unfold find_duplicates_with_enhanced_info. rewrite scan_loop_visits. simpl.
  destruct (scan_visits_groups (visits fs root) (d, []) []) as [Hnd Hget].
  { split; [apply NoDup_nil_2|done]. }
  etrans;
    [exact (dict_get_filter (λ kv : string * list string, (1 < length kv.2)%nat)
              h _ Hnd)|].
  rewrite Hget. simpl. fold (processed fs file_types root).
  destruct (with_digest md5 fs h (processed fs file_types root)) as [|p l] eqn:Hl.
  - by rewrite decide_False by (simpl; lia).
  - done.
Qed.

End ScanDict.

(** ** [collect_file_info]: the type of a file *)

Section FileTypeMore.








End FileTypeMore.

Lemma file_type_of_dotted_name_witness :
  PyStr.contains "." "data.TXT" = true
  ∧ file_type_of (path_join "/srv/v1.2" "data.TXT") = file_type_of "data.TXT".
Proof.
  assert (PyStr.contains "." "data.TXT" = true) as H by reflexivity.
  split; [exact H|]. exact (file_type_of_dotted_name "/srv/v1.2" "data.TXT" H).
Defined.

(** ** The filters *)

(** The empty filter matches every file name. *)
Theorem matches_empty_filter (file_types : list string) (filename : string) :
  "" ∈ file_types → matches file_types filename = true.
Proof.
  intros Hin. unfold matches. apply existsb_exists. exists "".
  split; [by apply list_elem_of_In|].
  apply endswith_app. exists (PyStr.lower filename).
  by rewrite string_app_nil_r.
Qed.

Lemma matches_empty_filter_witness :
  "" ∈ [".txt"; ""] ∧ matches [".txt"; ""] "README" = true.
Proof.
  assert ("" ∈ [".txt"; ""]) as H by (right; left).
  split; [exact H|]. exact (matches_empty_filter [".txt"; ""] "README" H).
Defined.

Lemma matches_lower_witness :
  PyStr.lower "Photo.JPG" = PyStr.lower "photo.jpg"
  ∧ matches [".jpg"] "Photo.JPG" = matches [".jpg"] "photo.jpg".
Proof.
  assert (PyStr.lower "Photo.JPG" = PyStr.lower "photo.jpg") as H by reflexivity.
  split; [exact H|]. exact (matches_lower [".jpg"] "Photo.JPG" "photo.jpg" H).
Defined.

(** ** The queries *)

(** Giving an end never adds a path: the answer with an end is part of
    the answer without one, which is part of the paths of the table, all in
    table order. *)
Theorem find_files_by_date_narrows (d : db) (start_date : Z) (end_date : option Z) :
  find_files_by_date d start_date end_date
    `sublist_of` find_files_by_date d start_date None
  ∧ find_files_by_date d start_date None `sublist_of` (path <$> d).
Proof.
  split.
  - unfold find_files_by_date. destruct (truthy end_date); [|done].
    simpl. apply fmap_sublist.
    rewrite <- (list_filter_filter_l
                  (λ r, start_date ≤ last_modified r
                        ∧ last_modified r ≤ default 0 end_date)
                  (λ r, start_date ≤ last_modified r)) by tauto.
    apply sublist_filter.
  - simpl. apply fmap_sublist, sublist_filter.
Qed.

(** A range whose end is before its start is empty. *)
Theorem find_files_by_date_empty_range (d : db) (start_date e : Z) :
  e ≠ 0 → e < start_date → find_files_by_date d start_date (Some e) = [].
Proof.
  intros Hne Hlt. rewrite find_files_by_date_in_range by done.
  rewrite filter_none; [done|]. intros r _. lia.
Qed.

Lemma find_files_by_date_empty_range_witness :
  3 ≠ 0 ∧ 3 < 7
  ∧ find_files_by_date [Row "/d/a.txt" "h" "txt" 1 5] 7 (Some 3) = [].
Proof.
  assert (3 ≠ 0) as H1 by lia. assert (3 < 7) as H2 by lia.
  split; [exact H1|]. split; [exact H2|].
  exact (find_files_by_date_empty_range [Row "/d/a.txt" "h" "txt" 1 5] 7 3 H1 H2).
Defined.

(** Raising the size threshold never adds a path. *)
Theorem find_large_files_monotone (d : db) (t1 t2 : Z) :
  t1 ≤ t2 → find_large_files d t2 `sublist_of` find_large_files d t1.
Proof.
  intros Hle. unfold find_large_files. apply fmap_sublist.
  rewrite <- (list_filter_filter_l (λ r, t2 < size r) (λ r, t1 < size r))
    by (intros r; lia).
  apply sublist_filter.
Qed.

Lemma find_large_files_monotone_witness :
  1000 ≤ 1500
  ∧ find_large_files [Row "/a" "h" "t" 500 1; Row "/b" "g" "t" 1500 1;
                      Row "/c" "f" "t" 2000 1] 1500
      `sublist_of`
    find_large_files [Row "/a" "h" "t" 500 1; Row "/b" "g" "t" 1500 1;
                      Row "/c" "f" "t" 2000 1] 1000.
Proof.
  assert (1000 ≤ 1500) as H by lia.
  split; [exact H|]. exact (find_large_files_monotone _ 1000 1500 H).
Defined.

(** The detailed listing names the paths of [find_large_files], in the
    same order, each with the size and the formatted time of its row, and
    every size listed is above the threshold. *)
Theorem find_large_files_with_details_paths (strftime : Z → string) (d : db)
    (size_threshold : Z) :
  (λ x, x.1.1) <$> find_large_files_with_details strftime d size_threshold
  = find_large_files d size_threshold
  ∧ ∀ p s t, (p, s, t) ∈ find_large_files_with_details strftime d size_threshold
             ↔ ∃ r, r ∈ d ∧ size_threshold < size r
                    ∧ p = path r ∧ s = size r ∧ t = strftime (last_modified r).
Proof.
  unfold find_large_files_with_details, find_large_files. split.
  - rewrite <- list_fmap_compose. by apply list_fmap_ext.
  - intros p s t. rewrite list_elem_of_fmap. split.
    + intros (r & Heq & Hr). injection Heq as -> -> ->.
      apply list_elem_of_filter in Hr as [? ?]. by exists r.
    + intros (r & Hr & Hs & -> & -> & ->). exists r.
      split; [done|]. by apply list_elem_of_filter.
Qed.

(** ** [clean_old_files], further *)

Lemma world_eq (a b : world) :
  disk a = disk b → table a = table b → calls a = calls b → a = b.
Proof. destruct a, b. simpl. by intros -> -> ->. Qed.

Lemma remove_existing_NoDup (l : list string) (w : world) (acc : list string) :
  NoDup acc → (∀ p, p ∈ acc → p ∉ disk w) →
  NoDup (remove_existing l (w, acc)).2.
Proof.
  revert w acc. induction l as [|f l IH]; intros w acc Hnd Hacc; [done|].
  rewrite remove_existing_cons. case_bool_decide as Hf; [|by apply IH].
  apply IH.
  - apply NoDup_app. split; [done|]. split; [|apply NoDup_singleton].
    intros p Hp ->%list_elem_of_singleton. by apply (Hacc f).
  - intros p Hp. simpl. rewrite elem_of_difference, elem_of_singleton.
    apply elem_of_app in Hp as [Hp|Hp%list_elem_of_singleton]; [|tauto].
    intros [Hd _]. by apply (Hacc p).
Qed.

(** A second run with the same threshold finds nothing to do: it returns
    the empty list and leaves the disk and the table as they are, without a
    call. *)
Theorem clean_old_files_twice (w : world) (T : Z) :
  let w1 := (clean_old_files w T).1 in
  clean_old_files w1 T = (w1, []).
Proof.
  intros w1.
  destruct (clean_old_files_spec w T) as (H1 & H2 & H3 & _).
  destruct (clean_old_files_spec w1 T) as (G1 & G2 & G3 & G4).
  fold w1 in H2, H3.
  assert ((clean_old_files w1 T).2 = []) as Hnil.
  { destruct (clean_old_files w1 T).2 as [|p c] eqn:Hc; [done|]. exfalso.
    destruct (proj1 (G1 p) ltac:(left)) as [(r & Hr & <- & Hlt) Hd].
    rewrite H3 in Hr. apply list_elem_of_filter in Hr as [Hn Hr].
    rewrite H2 in Hd. apply elem_of_difference in Hd as [Hd _].
    apply Hn, H1. split; [by exists r|done]. }
  rewrite Hnil in G2, G3, G4.
  rewrite (surjective_pairing (clean_old_files w1 T)), Hnil. f_equal.
  apply world_eq.
  - rewrite G2. simpl. set_solver.
  - rewrite G3. apply filter_all. intros r _. apply not_elem_of_nil.
  - rewrite G4. simpl. by rewrite app_nil_r.
Qed.

(** The list returned names no path twice, and a file goes from the disk
    only if a row with [last_modified < T] names it: files unknown to the
    table are never removed. *)
Theorem clean_old_files_only_old (w : world) (T : Z) :
  let w' := (clean_old_files w T).1 in
  NoDup (clean_old_files w T).2
  ∧ disk w' ⊆ disk w
  ∧ ∀ p, p ∈ disk w → p ∉ disk w' →
         ∃ r, r ∈ table w ∧ path r = p ∧ last_modified r < T.
Proof.
  intros w'.
  destruct (clean_old_files_spec w T) as (H1 & H2 & _ & _).
  fold w' in H2. split; [|split].
  - unfold clean_old_files. simpl. rewrite clean_loop_remove_existing.
    apply remove_existing_NoDup; [apply NoDup_nil_2|].
    intros p Hp. by apply elem_of_nil in Hp.
  - rewrite H2. set_solver.
  - intros p Hp Hp'. rewrite H2 in Hp'.
    assert (p ∈ (clean_old_files w T).2) as Hc.
    { destruct (decide (p ∈ (clean_old_files w T).2)); [done|].
      exfalso. apply Hp'. set_solver. }
    by apply H1 in Hc as [? _].
Qed.

(** Under the primary key, the file of a row with [last_modified >= T]
    stays on the disk and its row in the table, and the table keeps the
    primary key. *)
Theorem clean_old_files_keeps_recent (w : world) (T : Z) :
  primary_key (table w) →
  let w' := (clean_old_files w T).1 in
  primary_key (table w')
  ∧ ∀ r, r ∈ table w → T ≤ last_modified r →
         r ∈ table w' ∧ (path r ∈ disk w → path r ∈ disk w').
Proof.
  intros Hpk w'.
  destruct (clean_old_files_spec w T) as (H1 & H2 & H3 & _).
  fold w' in H2, H3. split.
  - rewrite H3. by apply primary_key_filter.
  - intros r Hr Hle.
    assert (path r ∉ (clean_old_files w T).2) as Hn.
    { intros Hc. apply H1 in Hc as [(r' & Hr' & Hp & Hlt) _].
      assert (r' = r) as -> by by apply (primary_key_inj (table w)).
      lia. }
    split.
    + rewrite H3. by apply list_elem_of_filter.
    + intros Hd. rewrite H2. set_solver.
Qed.

Lemma clean_old_files_keeps_recent_witness :
  primary_key (table two_copies)
  ∧ let w' := (clean_old_files two_copies 6).1 in
    primary_key (table w')
    ∧ ∀ r, r ∈ table two_copies → 6 ≤ last_modified r →
           r ∈ table w' ∧ (path r ∈ disk two_copies → path r ∈ disk w').
Proof.
  split; [exact two_copies_primary_key|].
  exact (clean_old_files_keeps_recent two_copies 6 two_copies_primary_key).
Defined.

(** ** [show_duplicate_files], further *)

Lemma show_duplicate_files_fmap (d : db) :
  show_duplicate_files d
  = (λ r, (r.1, PyStr.split ", " r.2)) <$> grouped_duplicates d.
Proof.
  unfold show_duplicate_files.
  rewrite (dict_fold_set_fresh fst (λ r, PyStr.split ", " r.2)); [done|].
  simpl. unfold grouped_duplicates. rewrite <- list_fmap_compose.
  simpl. rewrite list_fmap_id. apply NoDup_filter, NoDup_remove_dups.
Qed.

Lemma show_duplicate_files_keys_eq (d : db) :
  PyDict.keys (show_duplicate_files d)
  = filter (λ h, (1 < length (filter (λ r, hash r = h) d))%nat)
      (distinct (hash <$> d)).
Proof.
  rewrite show_duplicate_files_fmap. unfold PyDict.keys, grouped_duplicates.
  rewrite <- !list_fmap_compose. simpl. by rewrite list_fmap_id.
Qed.

Lemma show_duplicate_files_keys_iff (d : db) (h : string) :
  h ∈ PyDict.keys (show_duplicate_files d)
  ↔ (2 ≤ length (filter (λ r, hash r = h) d))%nat.
Proof.
  rewrite show_duplicate_files_keys_eq, list_elem_of_filter.
  unfold distinct. rewrite elem_of_remove_dups. split; [intros [? _]; lia|].
  intros Hlen. split; [lia|].
  destruct (filter (λ r, hash r = h) d) as [|r rs] eqn:Hf; [simpl in Hlen; lia|].
  assert (r ∈ filter (λ r, hash r = h) d) as Hr by (rewrite Hf; left).
  apply list_elem_of_filter in Hr as [<- Hr]. by apply list_elem_of_fmap_2.
Qed.

Lemma show_duplicate_files_nil_iff (d : db) :
  show_duplicate_files d = []
  ↔ ∀ h, (length (filter (λ r, hash r = h) d) ≤ 1)%nat.
Proof.
  split.
  - intros Hnil h.
    destruct (decide (2 ≤ length (filter (λ r, hash r = h) d))%nat) as [Hge|]; [|lia].
    apply show_duplicate_files_keys_iff in Hge. rewrite Hnil in Hge.
    by apply elem_of_nil in Hge.
  - intros Hall. pose proof (show_duplicate_files_keys_iff d) as Hkeys.
    destruct (show_duplicate_files d) as [|[h ps] l]; [done|].
    exfalso. specialize (Hall h).
    assert (h ∈ PyDict.keys ((h, ps) :: l)) as Hin by left.
    apply Hkeys in Hin. lia.
Qed.

(** Whatever the paths are, the keys returned are the digests stored
    with two rows or more, each once; the dictionary is empty exactly when
    no two rows share a digest. *)
Theorem show_duplicate_files_keys (d : db) :
  NoDup (PyDict.keys (show_duplicate_files d))
  ∧ (∀ h, h ∈ PyDict.keys (show_duplicate_files d)
          ↔ (2 ≤ length (filter (λ r, hash r = h) d))%nat)
  ∧ (show_duplicate_files d = []
     ↔ ∀ h, (length (filter (λ r, hash r = h) d) ≤ 1)%nat).
Proof.
  split; [|split].
  - rewrite show_duplicate_files_keys_eq. apply NoDup_filter, NoDup_remove_dups.
  - apply show_duplicate_files_keys_iff.
  - apply show_duplicate_files_nil_iff.
Qed.

Lemma show_duplicate_files_groups_witness :
  primary_key (table two_copies)
  ∧ Forall (λ r, comma_free (path r)) (table two_copies)
  ∧ (∀ h paths, (h, paths) ∈ show_duplicate_files (table two_copies) →
                duplicate_group (table two_copies) h paths
                ∧ (2 ≤ length paths)%nat)
  ∧ (∀ h, h ∈ PyDict.keys (show_duplicate_files (table two_copies))
          ↔ (2 ≤ length (filter (λ r, hash r = h) (table two_copies)))%nat).
Proof.
  assert (Forall (λ r, comma_free (path r)) (table two_copies)) as H.
  { repeat (apply Forall_cons; split; [reflexivity|]). apply Forall_nil_2. }
  split; [exact two_copies_primary_key|]. split; [exact H|].
  exact (show_duplicate_files_groups (table two_copies) two_copies_primary_key H).
Defined.

(** ** [delete_duplicates_and_update_db_interactive], the whole run *)










(** *** No duplicates are left after a run with valid answers *)










(** ** [get_statistics], further *)

Lemma length_remove_dups (l : list string) :
  (length (remove_dups l) ≤ length l)%nat.
Proof.
  induction l as [|x l IH]; [done|]. simpl.
  destruct (decide_rel elem_of x l); simpl; lia.
Qed.

(** There are no more types than rows; every type listed counts at least
    one row and at most all of them; the total size is missing exactly on
    the empty table, which is also when no type is listed. *)
Theorem statistics_bounds (d : db) :
  let s := get_statistics d in
  (unique_file_types s ≤ total_files s)%nat
  ∧ (∀ t n, (t, n) ∈ file_type_distribution s → (1 ≤ n ≤ total_files s)%nat)
  ∧ (total_size s = None ↔ d = [])
  ∧ (file_type_distribution s = [] ↔ d = []).
Proof.
  intros s. unfold s. rewrite distribution_is_count_by_type.
  split; [|split; [|split]].
  - simpl. unfold distinct. etrans; [apply length_remove_dups|].
    by rewrite length_fmap.
  - intros t n Hin. unfold count_by_type in Hin.
    apply list_elem_of_fmap in Hin as (t' & Heq & Ht). injection Heq as -> ->.
    unfold distinct in Ht. apply (proj1 (elem_of_remove_dups _ _)) in Ht.
    apply list_elem_of_fmap in Ht as (r & -> & Hr). simpl. split.
    + assert (r ∈ filter (λ r0, file_type r0 = file_type r) d) as Hf
        by by apply list_elem_of_filter.
      destruct (filter (λ r0, file_type r0 = file_type r) d);
        [by apply elem_of_nil in Hf|simpl; lia].
    + apply length_filter.
  - simpl. destruct d; done.
  - unfold count_by_type, distinct. split.
    + intros Hnil. apply fmap_nil_inv in Hnil.
      destruct d as [|r d]; [done|]. exfalso.
      assert (file_type r ∈ remove_dups (file_type <$> r :: d)) as Hin.
      { apply (proj2 (elem_of_remove_dups _ _)). left. }
      rewrite Hnil in Hin. by apply elem_of_nil in Hin.
    + by intros ->.
Qed.

(** ** [get_file_hash]: reading by chunks *)

Section HasherFacts.

Variable hasher : Type.
Variable md5_new : hasher.
Variable update : hasher → string → hasher.
Variable hexdigest : hasher → string.

(** Feeding a hash object piece by piece is feeding it the whole. *)
Hypothesis update_app : ∀ h a b, update (update h a) b = update h (a ++ b).
Hypothesis update_empty : ∀ h, update h "" = h.

Lemma take_drop_bytes (n : nat) (s : string) :
  take_bytes n s ++ drop_bytes n s = s.
Proof.
  revert s. induction n as [|n IH]; intros s; [done|].
  destruct s as [|c s]; [done|]. simpl take_bytes. simpl drop_bytes.
  by rewrite string_app_cons, IH.
Qed.

Lemma length_drop_bytes (n : nat) (s : string) :
  (String.length (drop_bytes n s) ≤ String.length s)%nat.
Proof.
  revert s. induction n as [|n IH]; intros s; [done|].
  destruct s as [|c s]; [done|]. simpl. specialize (IH s). lia.
Qed.

Lemma read_loop_whole (fuel size : nat) (h : hasher) (rest : string) :
  (1 ≤ size)%nat → (String.length rest < fuel)%nat →
  read_loop hasher update fuel size h rest = update h rest.
Proof.
  intros Hsize. revert h rest. induction fuel as [|fuel IH]; intros h rest Hlt.
  - lia.
  - destruct size as [|size]; [lia|].
    destruct rest as [|c rest]; [by rewrite update_empty|].
    cbn [read_loop file_read take_bytes drop_bytes].
    destruct (String.eqb_spec (String c (take_bytes size rest)) "") as [Heq|_];
      [done|].
    rewrite IH.
    + rewrite update_app, string_app_cons. by rewrite take_drop_bytes.
    + pose proof (length_drop_bytes size rest). simpl in Hlt. lia.
  Qed.

(** The digest computed chunk by chunk is the digest of the whole
    content, whatever the number of turns allowed beyond the length of the
    content. *)
Theorem get_file_hash_chunked_whole (content : string) (fuel : nat) :
  (String.length content < fuel)%nat →
  hexdigest (read_loop hasher update fuel 4096 md5_new content)
  = hexdigest (update md5_new content)
  ∧ get_file_hash_chunked hasher md5_new update hexdigest content
    = hexdigest (update md5_new content).
Proof.
  intros Hlt. unfold get_file_hash_chunked.
  rewrite !read_loop_whole by lia. done.
Qed.

End HasherFacts.

Lemma get_file_hash_chunked_whole_witness :
  (∀ h a b : string, (h ++ a) ++ b = h ++ (a ++ b))
  ∧ (∀ h : string, h ++ "" = h)
  ∧ (String.length "content" < 9)%nat
  ∧ id (read_loop string String.append 9 4096 "" "content")
    = id (String.append "" "content")
  ∧ get_file_hash_chunked string "" String.append id "content"
    = id (String.append "" "content").
Proof.
  assert (String.length "content" < 9)%nat as H by (simpl; lia).
  split; [exact string_app_assoc|]. split; [exact string_app_nil_r|].
  split; [exact H|].
  exact (get_file_hash_chunked_whole string "" String.append id
           string_app_assoc string_app_nil_r "content" 9 H).
Defined.
